(** * The documentation sidebar of the website package

    A verification development for [packages/website/sidebars.js]: the helper
    [createLibraryReferenceStructure] and the [sidebars] object literal the
    module exports.

    The JavaScript is embedded shallowly.  Every object and array literal
    allocates a fresh cell in a heap, values are primitives or references
    into that heap, and an expression is a function from the heap to a
    completion (a value or a thrown error) and the heap it leaves behind. *)

From Stdlib Require Import ZArith Lia.
From stdpp Require Import base option list strings.

Set Warnings "-register-all".

(** ** Values, heap cells and heaps *)

(** Addresses are natural numbers. *)
Abbreviation loc := nat.

(** A JavaScript value.  Numbers are never inspected by the code at hand and
    are kept as integers. *)
Inductive value : Type :=
| VUndefined
| VNull
| VBool (b : bool)
| VNum (n : Z)
| VStr (s : string)
| VRef (r : loc).

(** A heap cell: a plain object with its own properties in insertion order,
    or an array with its elements. *)
Inductive obj : Type :=
| OObject (props : list (string * value))
| OArray (elems : list value).

(** The heap is the list of the cells allocated so far; the cell at address
    [r] is [h !! r]. *)
Abbreviation heap := (list obj).

(** What an expression can throw: a TypeError of the language, or the
    model's own error for an address that no cell was allocated at. *)
Inductive error : Type :=
| TypeError
| DanglingReference.

(** The completion of an expression: a value, or a thrown error. *)
Inductive completion (A : Type) : Type :=
| Normal (a : A)
| Throw (e : error).
Arguments Normal {A} a.
Arguments Throw {A} e.

(** ** Expressions: heap passing with completions *)

Definition M (A : Type) : Type := heap -> completion A * heap.

Definition ret {A} (a : A) : M A := fun h => (Normal a, h).

Definition throw {A} (e : error) : M A := fun h => (Throw e, h).

Definition bind {A B} (m : M A) (k : A -> M B) : M B :=
  fun h =>
    match m h with
    | (Normal a, h') => k a h'
    | (Throw e, h') => (Throw e, h')
    end.

Notation "'let*' x ':=' m 'in' k" := (bind m (fun x => k))
  (at level 10, x name, m at level 100, k at level 200).

(** Allocation of a fresh cell: the next free address is the heap's length. *)
Definition alloc (o : obj) : M value :=
  fun h => (Normal (VRef (length h)), h ++ [o]).

(** A string literal, [true]/[false], [undefined]. *)
Definition str (s : string) : M value := ret (VStr s).
Definition boolean (b : bool) : M value := ret (VBool b).

(** The iteration a spread element performs on its operand: the elements of
    an array, the characters of a string (one per character of the model's
    strings); anything else is not iterable and throws a TypeError. *)
Definition string_chars (s : string) : list value :=
  map (fun c => VStr (String c EmptyString)) (String.list_ascii_of_string s).

Definition iterate (v : value) : M (list value) :=
  fun h =>
    match v with
    | VRef r =>
        match h !! r with
        | Some (OArray xs) => ret xs h
        | Some (OObject _) => throw TypeError h
        | None => throw DanglingReference h
        end
    | VStr s => ret (string_chars s) h
    | _ => throw TypeError h
    end.

(** An object literal [{ k1: e1, ..., kn: en }]: the property values are
    evaluated left to right, then the object is stored in a fresh cell.
    (An engine creates the object before it evaluates the properties; the
    order of the two is not observable, addresses are not values of the
    language.) *)
Fixpoint eval_props (ps : list (string * M value)) : M (list (string * value)) :=
  match ps with
  | [] => ret []
  | (k, e) :: ps' =>
      let* v := e in
      let* vs := eval_props ps' in
      ret ((k, v) :: vs)
  end.

Definition obj_lit (ps : list (string * M value)) : M value :=
  let* vs := eval_props ps in alloc (OObject vs).

(** An array literal [[ e1, ...spread, ... ]]. *)
Inductive element : Type :=
| Elem (e : M value)
| Spread (e : M value).

Fixpoint eval_elems (es : list element) : M (list value) :=
  match es with
  | [] => ret []
  | Elem e :: es' =>
      let* v := e in
      let* vs := eval_elems es' in
      ret (v :: vs)
  | Spread e :: es' =>
      let* v := e in
      let* xs := iterate v in
      let* vs := eval_elems es' in
      ret (xs ++ vs)
  end.

Definition arr_lit (es : list element) : M value :=
  let* vs := eval_elems es in alloc (OArray vs).

(** [a ?? b]: [b] is evaluated only when [a] is [undefined] or [null]. *)
Definition nullish (a b : M value) : M value :=
  let* v := a in
  match v with
  | VUndefined | VNull => b
  | _ => ret v
  end.

(** The binding of an optional parameter: a missing argument is [undefined]. *)
Definition param (arg : option value) : value :=
  match arg with
  | Some v => v
  | None => VUndefined
  end.

(** ** The source *)

(** [function createLibraryReferenceStructure(libName, extra)].
    [libName] is a string (the JSDoc type the file is checked against), so
    the template literals are concatenations; [extra] is optional. *)
Definition createLibraryReferenceStructure
    (libName : string) (extra_arg : option value) : M value :=
  let extra := param extra_arg in
  obj_lit [
    ("type", str "category");
    ("label", str "Reference");
    ("link", obj_lit [
      ("type", str "doc");
      ("id", str ("standard-library/" +:+ libName +:+ "/reference/index"))
    ]);
    ("items", arr_lit [
      Elem (obj_lit [
        ("type", str "autogenerated");
        ("dirName", str ("standard-library/" +:+ libName +:+ "/reference"))
      ]);
      Spread (nullish (ret extra) (arr_lit []))
    ])
  ].

(** [const sidebars = { docsSidebar: [ ... ] }]. A string item of an array
    literal is written [page "..."]. *)
Definition page (s : string) : element := Elem (str s).

Definition sidebars : M value :=
  obj_lit [
    ("docsSidebar", arr_lit [
      Elem (obj_lit [
        ("type", str "category");
        ("label", str "Introduction");
        ("items", arr_lit [
          page "introduction/introduction";
          page "introduction/installation";
          page "introduction/usage";
          page "introduction/style-guide";
          page "introduction/formatter";
          Elem (obj_lit [
            ("type", str "category");
            ("label", str "Configuration");
            ("items", arr_lit [
              page "introduction/configuration/configuration";
              page "introduction/configuration/tracing"
            ])
          ]);
          page "introduction/releases";
          page "introduction/faq"
        ])
      ]);
      Elem (obj_lit [
        ("type", str "category");
        ("label", str "Getting Started");
        ("items", arr_lit [
          page "getting-started/getting-started";
          page "getting-started/cadl-for-openapi-dev"
        ])
      ]);
      Elem (obj_lit [
        ("type", str "category");
        ("label", str "Language Basics");
        ("items", arr_lit [
          page "language-basics/overview";
          page "language-basics/imports";
          page "language-basics/namespaces";
          page "language-basics/decorators";
          page "language-basics/scalars";
          page "language-basics/models";
          page "language-basics/operations";
          page "language-basics/interfaces";
          page "language-basics/templates";
          page "language-basics/enums";
          page "language-basics/unions";
          page "language-basics/intersections";
          page "language-basics/type-literals";
          page "language-basics/aliases";
          page "language-basics/type-relations"
        ])
      ]);
      Elem (obj_lit [
        ("type", str "category");
        ("label", str "Cadl Standard Library");
        ("items", arr_lit [
          page "standard-library/built-in-types";
          page "standard-library/built-in-decorators";
          page "standard-library/projected-names";
          Elem (obj_lit [
            ("type", str "category");
            ("label", str "Http And Rest");
            ("items", arr_lit [
              page "standard-library/rest/overview";
              Elem (createLibraryReferenceStructure "rest" None);
              page "standard-library/rest/operations";
              page "standard-library/rest/authentication";
              page "standard-library/rest/resource-routing"
            ])
          ]);
          Elem (obj_lit [
            ("type", str "category");
            ("label", str "OpenAPI");
            ("items", arr_lit [
              page "standard-library/openapi/overview";
              Elem (let* extra :=
                      arr_lit [page "standard-library/openapi/diagnostics"] in
                    createLibraryReferenceStructure "openapi" (Some extra));
              page "standard-library/openapi/openapi"
            ])
          ])
        ])
      ]);
      Elem (obj_lit [
        ("type", str "category");
        ("label", str "Writing Cadl Libraries");
        ("items", arr_lit [
          page "extending-cadl/basics";
          page "extending-cadl/create-decorators";
          page "extending-cadl/linters";
          page "extending-cadl/emitters";
          page "extending-cadl/writing-scaffolding-template"
        ])
      ]);
      Elem (obj_lit [
        ("type", str "category");
        ("label", str "Compiler Reference");
        ("link", obj_lit [
          ("type", str "doc");
          ("id", str "compiler/reference/index")
        ]);
        ("items", arr_lit [
          Elem (obj_lit [
            ("type", str "autogenerated");
            ("dirName", str "compiler")
          ])
        ])
      ]);
      Elem (obj_lit [
        ("type", str "category");
        ("label", str "Release Notes");
        ("collapsed", boolean true);
        ("link", obj_lit [
          ("type", str "generated-index");
          ("title", str "Release Notes");
          ("slug", str "/release-notes")
        ]);
        ("items", arr_lit [
          Elem (obj_lit [
            ("type", str "autogenerated");
            ("dirName", str "release-notes")
          ])
        ])
      ])
    ])
  ].

(** [module.exports = sidebars]. *)
Definition module_exports : M value := sidebars.

(** ** Reading a value out of the heap *)

(** The structure a value denotes: the tree obtained by following its
    references.  Two values are structurally equal when they denote the same
    tree, whatever the addresses involved. *)
Inductive tree : Type :=
| TUndefined
| TNull
| TBool (b : bool)
| TNum (n : Z)
| TStr (s : string)
| TObject (props : list (string * tree))
| TArray (elems : list tree).

(** [reify n h v] follows references to depth [n]; it is [None] on a
    dangling reference and when the structure is deeper than [n] (a cyclic
    one is deeper than every [n]). *)
Fixpoint reify (n : nat) (h : heap) (v : value) : option tree :=
  match v with
  | VUndefined => Some TUndefined
  | VNull => Some TNull
  | VBool b => Some (TBool b)
  | VNum z => Some (TNum z)
  | VStr s => Some (TStr s)
  | VRef r =>
      match n with
      | 0 => None
      | S n' =>
          match h !! r with
          | Some (OObject ps) =>
              TObject <$> mapM (fun p => pair p.1 <$> reify n' h p.2) ps
          | Some (OArray xs) => TArray <$> mapM (reify n' h) xs
          | None => None
          end
      end
  end.

Definition reifies (h : heap) (v : value) (t : tree) : Prop :=
  exists n, reify n h v = Some t.

(** Structural equality of two values, each in its own heap. *)
Definition structurally_equal
    (h1 : heap) (v1 : value) (h2 : heap) (v2 : value) : Prop :=
  exists t, reifies h1 v1 t /\ reifies h2 v2 t.

(** Property access on a heap object and on a tree: the first property of
    that name (a literal of the source never repeats a name). *)
Fixpoint assoc {A} (k : string) (ps : list (string * A)) : option A :=
  match ps with
  | [] => None
  | (k', a) :: ps' => if String.eqb k k' then Some a else assoc k ps'
  end.

Definition get (h : heap) (v : value) (k : string) : option value :=
  match v with
  | VRef r =>
      match h !! r with
      | Some (OObject ps) => assoc k ps
      | _ => None
      end
  | _ => None
  end.

Definition elements (h : heap) (v : value) : option (list value) :=
  match v with
  | VRef r =>
      match h !! r with
      | Some (OArray xs) => Some xs
      | _ => None
      end
  | _ => None
  end.

Definition tget (t : tree) (k : string) : option tree :=
  match t with
  | TObject ps => assoc k ps
  | _ => None
  end.

(** ** Calls of [createLibraryReferenceStructure] *)

(** The entries an [extra] argument contributes when it is what the
    signature asks for: nothing when the argument is omitted or [undefined],
    the elements of the array otherwise.  [None] for any other argument. *)
Definition extra_entries (h : heap) (extra_arg : option value)
    : option (list value) :=
  match extra_arg with
  | None => Some []
  | Some VUndefined => Some []
  | Some (VRef r) => elements h (VRef r)
  | Some _ => None
  end.

(** The shape of a result in the heap: the category object, its link object,
    its items array and the autogenerated marker the array starts with. *)
Definition reference_shape
    (h : heap) (v : value) (libName : string) (entries : list value) : Prop :=
  exists r l a g,
    v = VRef r /\
    h !! r = Some (OObject [("type", VStr "category");
                            ("label", VStr "Reference");
                            ("link", VRef l);
                            ("items", VRef a)]) /\
    h !! l = Some (OObject [("type", VStr "doc");
                            ("id", VStr ("standard-library/" +:+ libName
                                           +:+ "/reference/index"))]) /\
    h !! a = Some (OArray (VRef g :: entries)) /\
    h !! g = Some (OObject [("type", VStr "autogenerated");
                            ("dirName", VStr ("standard-library/" +:+ libName
                                                +:+ "/reference"))]).

(** The same shape as a tree. *)
Definition reference_tree (libName : string) (entries : list tree) : tree :=
  TObject [
    ("type", TStr "category");
    ("label", TStr "Reference");
    ("link", TObject [
      ("type", TStr "doc");
      ("id", TStr ("standard-library/" +:+ libName +:+ "/reference/index"))
    ]);
    ("items", TArray (
      TObject [
        ("type", TStr "autogenerated");
        ("dirName", TStr ("standard-library/" +:+ libName +:+ "/reference"))
      ] :: entries))
  ].

(** [produces m t]: from every heap, the expression [m] completes normally,
    leaves the cells that were there untouched, and its value denotes [t]. *)
Definition produces (m : M value) (t : tree) : Prop :=
  forall h, exists v h',
    m h = (Normal v, h') /\ h `prefix_of` h' /\ reifies h' v t.

(** ** The sidebar data model *)

(** The three kinds of sidebar item, read off a tree. *)
Definition is_leaf (t : tree) : bool :=
  match t with
  | TStr _ => true
  | _ => false
  end.

Definition has_type (ty : string) (t : tree) : bool :=
  match tget t "type" with
  | Some (TStr s) => String.eqb s ty
  | _ => false
  end.

Definition is_category (t : tree) : bool :=
  has_type "category" t &&
  match tget t "label", tget t "items" with
  | Some (TStr _), Some (TArray _) =>
      match tget t "link" with
      | None | Some (TObject _) => true
      | Some _ => false
      end
  | _, _ => false
  end.

Definition is_autogenerated (t : tree) : bool :=
  has_type "autogenerated" t &&
  match tget t "dirName" with
  | Some (TStr _) => true
  | _ => false
  end.

(** The number of kinds a tree belongs to. *)
Definition kind_count (t : tree) : nat :=
  Nat.b2n (is_leaf t) + Nat.b2n (is_category t) + Nat.b2n (is_autogenerated t).

Definition exactly_one_kind (t : tree) : Prop := kind_count t = 1.

(** The child items of a node: the elements of its [items] array. *)
Definition children (t : tree) : list tree :=
  match tget t "items" with
  | Some (TArray cs) => cs
  | _ => []
  end.

(** A node and all the items below it, in document order. *)
Fixpoint nodes (t : tree) : list tree :=
  t ::
  match t with
  | TObject ps =>
      (fix items (ps : list (string * tree)) : list tree :=
         match ps with
         | [] => []
         | (k, v) :: ps' =>
             if String.eqb "items" k
             then match v with
                  | TArray cs => flat_map nodes cs
                  | _ => []
                  end
             else items ps'
         end) ps
  | _ => []
  end.

Definition label (t : tree) : option string :=
  match tget t "label" with
  | Some (TStr s) => Some s
  | _ => None
  end.

(** The labels of the categories of one sibling list. *)
Definition category_labels (siblings : list tree) : list string :=
  omap (fun t => if has_type "category" t then label t else None) siblings.

(** The exported value, read from the heap of a fresh module evaluation. *)
Definition sidebars_tree : tree :=
  Eval vm_compute in
    match module_exports [] with
    | (Normal v, h) => default TUndefined (reify (length h) h v)
    | (Throw _, _) => TUndefined
    end.

(** The names of the properties of an object. *)
Definition property_names (t : tree) : list string :=
  match t with
  | TObject ps => ps.*1
  | _ => []
  end.

(** The fields of a result that the arguments have no part in. *)
Definition category_named_reference (h : heap) (v : value) : Prop :=
  get h v "type" = Some (VStr "category") /\
  get h v "label" = Some (VStr "Reference").

(** ** Outcomes of a call, whatever the argument *)

(** What the spread [...(extra ?? [])] contributes to the items, for any
    value of [extra]: nothing for [undefined] and [null], the elements of an
    array, the characters of a string; [None] when the spread throws. *)
Definition spread_entries (h : heap) (extra : value) : option (list value) :=
  match extra with
  | VUndefined | VNull => Some []
  | VStr s => Some (string_chars s)
  | VRef r => elements h (VRef r)
  | VBool _ | VNum _ => None
  end.


(** The cells a call adds to a heap of [n] cells: the link, the marker, the
    empty array of the default when [extra] is nullish, the items and the
    category. *)
Definition default_cells (extra : value) : list obj :=
  match extra with
  | VUndefined | VNull => [OArray []]
  | _ => []
  end.

Definition new_cells
    (n : nat) (libName : string) (extra : value) (entries : list value)
    : list obj :=
  [OObject [("type", VStr "doc");
            ("id", VStr ("standard-library/" +:+ libName
                           +:+ "/reference/index"))];
   OObject [("type", VStr "autogenerated");
            ("dirName", VStr ("standard-library/" +:+ libName
                                +:+ "/reference"))]] ++
  default_cells extra ++
  [OArray (VRef (n + 1) :: entries);
   OObject [("type", VStr "category");
            ("label", VStr "Reference");
            ("link", VRef n);
            ("items", VRef (n + 2 + length (default_cells extra)))]].

(** ** Heaps without cycles *)

(** The values a cell holds. *)
Definition cell_values (o : obj) : list value :=
  match o with
  | OObject ps => ps.*2
  | OArray xs => xs
  end.

(** [refs_below n v]: if [v] is a reference, it is to one of the first [n]
    cells. *)
Definition refs_below (n : nat) (v : value) : bool :=
  match v with
  | VRef r => r <? n
  | _ => true
  end.

(** A heap is well founded when every cell refers only to cells allocated
    before it; such a heap has no dangling reference and no cycle. *)
Fixpoint wf_from (i : nat) (h : heap) : bool :=
  match h with
  | [] => true
  | o :: h' => forallb (refs_below i) (cell_values o) && wf_from (S i) h'
  end.

Definition well_founded (h : heap) : Prop := wf_from 0 h = true.

(** * Reasoning about the heap *)

Section Reify.
Implicit Types (h : heap) (v : value) (t : tree) (n : nat).

Lemma reify_ref n h r :
  reify (S n) h (VRef r) =
    match h !! r with
    | Some (OObject ps) =>
        TObject <$> mapM (fun p => pair p.1 <$> reify n h p.2) ps
    | Some (OArray xs) => TArray <$> mapM (reify n h) xs
    | None => None
    end.
Proof. reflexivity. Qed.

(** More fuel and a longer heap read the same tree. *)
Lemma reify_mono n : forall m h h' v t,
  n <= m -> h `prefix_of` h' ->
  reify n h v = Some t -> reify m h' v = Some t.
Proof.
  induction n as [|n IH]; intros m h h' v t Hle Hpre Hr.
  - destruct v; destruct m; simpl in *; congruence.
  - destruct v; try (destruct m; simpl in *; congruence).
    destruct m as [|m]; [lia|]. rewrite reify_ref in Hr. rewrite reify_ref.
    destruct (h !! r) as [o|] eqn:Hl; [|discriminate].
    rewrite (prefix_lookup_Some _ _ _ _ Hl Hpre).
    destruct o as [ps|xs].
    + destruct (mapM _ ps) as [tps|] eqn:Hm; [|discriminate].
      simpl in Hr. injection Hr as <-.
      apply mapM_Some in Hm.
      erewrite (proj2 (mapM_Some _ _ _)); [reflexivity|].
      eapply Forall2_impl; [exact Hm|]. intros p q Hpq. simpl in *.
      destruct (reify n h p.2) as [t'|] eqn:Hp; [|discriminate].
      rewrite (IH m h h' _ t'); [exact Hpq|lia|done|done].
    + destruct (mapM _ xs) as [ts|] eqn:Hm; [|discriminate].
      simpl in Hr. injection Hr as <-.
      apply mapM_Some in Hm.
      erewrite (proj2 (mapM_Some _ _ _)); [reflexivity|].
      eapply Forall2_impl; [exact Hm|]. intros x y Hxy. simpl in *.
      apply (IH m h h'); [lia|done|done].
Qed.

Lemma reifies_mono h h' v t :
  h `prefix_of` h' -> reifies h v t -> reifies h' v t.
Proof. intros Hpre [n Hn]. exists n. by apply (reify_mono n n h h'). Qed.

(** A list of values that each denote a tree is read with one fuel. *)
Lemma reifies_list h vs ts :
  Forall2 (reifies h) vs ts -> exists n, mapM (reify n h) vs = Some ts.
Proof.
  induction 1 as [|v t vs ts [n Hn] _ [m Hm]].
  - by exists 0.
  - exists (n `max` m). apply mapM_Some. constructor.
    + apply (reify_mono n _ h h); [lia|done|done].
    + apply mapM_Some in Hm. eapply Forall2_impl; [exact Hm|].
      intros x y Hxy. apply (reify_mono m _ h h); [lia|done|done].
Qed.

Lemma reifies_props h (vs : list (string * value)) (ts : list (string * tree)) :
  Forall2 (fun p q => p.1 = q.1 /\ reifies h p.2 q.2) vs ts ->
  exists n, mapM (fun p => pair p.1 <$> reify n h p.2) vs = Some ts.
Proof.
  induction 1 as [|[k v] [k' t] vs ts [Hk [n Hn]] _ [m Hm]].
  - by exists 0.
  - simpl in Hk, Hn. subst k'. exists (n `max` m). apply mapM_Some. constructor.
    + simpl. rewrite (reify_mono n (n `max` m) h h v t); [done|lia|done|done].
    + apply mapM_Some in Hm. eapply Forall2_impl; [exact Hm|].
      intros x y Hxy. simpl in *.
      destruct (reify m h x.2) as [t'|] eqn:Hx; [|discriminate].
      rewrite (reify_mono m (n `max` m) h h _ t'); [done|lia|done|done].
Qed.

Lemma reifies_object h r vs ts :
  h !! r = Some (OObject vs) ->
  Forall2 (fun p q => p.1 = q.1 /\ reifies h p.2 q.2) vs ts ->
  reifies h (VRef r) (TObject ts).
Proof.
  intros Hr Hf. destruct (reifies_props _ _ _ Hf) as [n Hn].
  exists (S n). by rewrite reify_ref, Hr, Hn.
Qed.

Lemma reifies_array h r vs ts :
  h !! r = Some (OArray vs) ->
  Forall2 (reifies h) vs ts ->
  reifies h (VRef r) (TArray ts).
Proof.
  intros Hr Hf. destruct (reifies_list _ _ _ Hf) as [n Hn].
  exists (S n). by rewrite reify_ref, Hr, Hn.
Qed.

(** The tree a value denotes is unique. *)
Lemma reifies_inj h v t1 t2 : reifies h v t1 -> reifies h v t2 -> t1 = t2.
Proof.
  intros [n Hn] [m Hm].
  apply (reify_mono n (n `max` m) h h) in Hn; [|lia|done].
  apply (reify_mono m (n `max` m) h h) in Hm; [|lia|done].
  congruence.
Qed.

Lemma reifies_str h s : reifies h (VStr s) (TStr s).
Proof. by exists 0. Qed.

(** A value that denotes an array is a reference to an array cell. *)
Lemma reifies_array_inv h v ts :
  reifies h v (TArray ts) ->
  exists r xs,
    v = VRef r /\ h !! r = Some (OArray xs) /\ Forall2 (reifies h) xs ts.
Proof.
  intros [n Hn]. destruct v; try (destruct n; discriminate).
  destruct n as [|n]; [discriminate|]. rewrite reify_ref in Hn.
  destruct (h !! r) as [[ps|xs]|] eqn:Hr; try discriminate.
  - destruct (mapM _ ps); discriminate.
  - destruct (mapM _ xs) as [ts'|] eqn:Hm; [|discriminate].
    injection Hn as ->. exists r, xs. split; [done|]. split; [done|].
    apply mapM_Some in Hm. eapply Forall2_impl; [exact Hm|].
    intros x y Hxy. by exists n.
Qed.
End Reify.

(** * Evaluation of literals *)

Section Literals.
Implicit Types (h : heap) (v : value) (t : tree).

Lemma produces_str s : produces (str s) (TStr s).
Proof. intros h. exists (VStr s), h. repeat split; [done|]. by exists 0. Qed.

Lemma produces_boolean b : produces (boolean b) (TBool b).
Proof. intros h. exists (VBool b), h. repeat split; [done|]. by exists 0. Qed.

Lemma eval_props_produces ps tps :
  Forall2 (fun p q => p.1 = q.1 /\ produces p.2 q.2) ps tps ->
  forall h, exists vs h',
    eval_props ps h = (Normal vs, h') /\ h `prefix_of` h' /\
    Forall2 (fun p q => p.1 = q.1 /\ reifies h' p.2 q.2) vs tps.
Proof.
  induction 1 as [|[k e] [k' t] ps tps [Hk He] _ IH]; intros h.
  - by exists [], h.
  - simpl in Hk, He. subst k'.
    destruct (He h) as (v & h1 & Hrun1 & Hp1 & Hv).
    destruct (IH h1) as (vs & h2 & Hrun2 & Hp2 & Hvs).
    exists ((k, v) :: vs), h2. split; [|split].
    + simpl. unfold bind. by rewrite Hrun1, Hrun2.
    + by etrans.
    + constructor; [|done]. split; [done|]. by eapply reifies_mono.
Qed.

Lemma produces_obj_lit ps tps :
  Forall2 (fun p q => p.1 = q.1 /\ produces p.2 q.2) ps tps ->
  produces (obj_lit ps) (TObject tps).
Proof.
  intros Hf h.
  destruct (eval_props_produces _ _ Hf h) as (vs & h1 & Hrun & Hp & Hvs).
  exists (VRef (length h1)), (h1 ++ [OObject vs]). split; [|split].
  - unfold obj_lit, bind. by rewrite Hrun.
  - by apply prefix_app_r.
  - eapply reifies_object; [by apply list_lookup_middle|].
    eapply Forall2_impl; [exact Hvs|]. intros p q [Hk Hr]. split; [done|].
    eapply reifies_mono; [|exact Hr]. by apply prefix_app_r.
Qed.

(** An array literal without spread elements. *)
Lemma eval_elems_produces es ts :
  Forall2 (fun el t => exists e, el = Elem e /\ produces e t) es ts ->
  forall h, exists vs h',
    eval_elems es h = (Normal vs, h') /\ h `prefix_of` h' /\
    Forall2 (reifies h') vs ts.
Proof.
  induction 1 as [|el t es ts (e & -> & He) _ IH]; intros h.
  - by exists [], h.
  - destruct (He h) as (v & h1 & Hrun1 & Hp1 & Hv).
    destruct (IH h1) as (vs & h2 & Hrun2 & Hp2 & Hvs).
    exists (v :: vs), h2. split; [|split].
    + simpl. unfold bind. by rewrite Hrun1, Hrun2.
    + by etrans.
    + constructor; [|done]. by eapply reifies_mono.
Qed.

Lemma produces_arr_lit es ts :
  Forall2 (fun el t => exists e, el = Elem e /\ produces e t) es ts ->
  produces (arr_lit es) (TArray ts).
Proof.
  intros Hf h.
  destruct (eval_elems_produces _ _ Hf h) as (vs & h1 & Hrun & Hp & Hvs).
  exists (VRef (length h1)), (h1 ++ [OArray vs]). split; [|split].
  - unfold arr_lit, bind. by rewrite Hrun.
  - by apply prefix_app_r.
  - eapply reifies_array; [by apply list_lookup_middle|].
    eapply Forall2_impl; [exact Hvs|]. intros x y Hr.
    eapply reifies_mono; [|exact Hr]. by apply prefix_app_r.
Qed.

Lemma produces_page s t :
  t = TStr s -> exists e, page s = Elem e /\ produces e t.
Proof. intros ->. exists (str s). split; [done|apply produces_str]. Qed.
End Literals.

(** * The helper *)

(** Looking a cell up in a heap that grew by one cell at a time. *)
Ltac lookup_alloc :=
  repeat first
    [ apply list_lookup_middle; reflexivity
    | apply lookup_app_l_Some ].

Section Helper.
Implicit Types (h : heap) (v : value) (libName : string).

Lemma createLibraryReferenceStructure_run libName extra_arg h entries :
  extra_entries h extra_arg = Some entries ->
  exists v h',
    createLibraryReferenceStructure libName extra_arg h = (Normal v, h') /\
    h `prefix_of` h' /\
    reference_shape h' v libName entries.
Proof.
  intros He. destruct extra_arg as [[| | | | |r]|]; simpl in He; try discriminate.
  - injection He as <-.
    eexists _, _. split.
    { cbv [createLibraryReferenceStructure obj_lit arr_lit eval_props eval_elems nullish
        bind iterate alloc ret str param].
      rewrite list_lookup_middle by reflexivity. reflexivity. }
    split.
    + repeat apply prefix_app_r. done.
    + eexists _, _, _, _. split; [reflexivity|].
      repeat split; lookup_alloc.
  - destruct (h !! r) as [[ps|xs]|] eqn:Hr; try discriminate.
    injection He as <-.
    eexists _, _. split.
    { cbv [createLibraryReferenceStructure obj_lit arr_lit eval_props eval_elems nullish
        bind iterate alloc ret str param].
      rewrite lookup_app_l_Some with (x := OArray xs);
        [rewrite app_nil_r; reflexivity|].
      by apply lookup_app_l_Some. }
    split.
    + repeat apply prefix_app_r. done.
    + eexists _, _, _, _. split; [reflexivity|].
      repeat split; lookup_alloc.
  - injection He as <-.
    eexists _, _. split.
    { cbv [createLibraryReferenceStructure obj_lit arr_lit eval_props eval_elems nullish
        bind iterate alloc ret str param].
      rewrite list_lookup_middle by reflexivity. reflexivity. }
    split.
    + repeat apply prefix_app_r. done.
    + eexists _, _, _, _. split; [reflexivity|].
      repeat split; lookup_alloc.
Qed.

Lemma reference_shape_reifies h v libName entries ts :
  reference_shape h v libName entries ->
  Forall2 (reifies h) entries ts ->
  reifies h v (reference_tree libName ts).
Proof.
  intros (r & l & a & g & -> & Hr & Hl & Ha & Hg) Hes.
  eapply reifies_object; [exact Hr|].
  constructor; [split; [reflexivity|apply reifies_str]|].
  constructor; [split; [reflexivity|apply reifies_str]|].
  constructor; [split; [reflexivity|simpl]|].
  { eapply reifies_object; [exact Hl|].
    constructor; [split; [reflexivity|apply reifies_str]|].
    constructor; [split; [reflexivity|apply reifies_str]|].
    constructor. }
  constructor; [split; [reflexivity|simpl]|constructor].
  eapply reifies_array; [exact Ha|]. constructor; [|exact Hes].
  eapply reifies_object; [exact Hg|].
  constructor; [split; [reflexivity|apply reifies_str]|].
  constructor; [split; [reflexivity|apply reifies_str]|].
  constructor.
Qed.

Lemma createLibraryReferenceStructure_reifies libName extra_arg h entries ts :
  extra_entries h extra_arg = Some entries ->
  Forall2 (reifies h) entries ts ->
  exists v h',
    createLibraryReferenceStructure libName extra_arg h = (Normal v, h') /\
    h `prefix_of` h' /\
    reifies h' v (reference_tree libName ts).
Proof.
  intros He Hes.
  destruct (createLibraryReferenceStructure_run libName _ _ _ He)
    as (v & h' & Hrun & Hp & Hshape).
  exists v, h'. repeat split; [done|done|].
  eapply reference_shape_reifies; [exact Hshape|].
  eapply Forall2_impl; [exact Hes|]. intros x y Hxy. by eapply reifies_mono.
Qed.

(** The two forms of call in the source: without [extra], and with an
    array literal for it. *)
Lemma produces_reference_omitted libName :
  produces (createLibraryReferenceStructure libName None)
           (reference_tree libName []).
Proof.
  intros h.
  apply (createLibraryReferenceStructure_reifies libName None h [] []);
    [done|constructor].
Qed.

Lemma produces_reference_call libName (e : M value) ts :
  produces e (TArray ts) ->
  produces (let* extra := e in
            createLibraryReferenceStructure libName (Some extra))
           (reference_tree libName ts).
Proof.
  intros He h. destruct (He h) as (v & h1 & Hrun & Hp & Hv).
  destruct (reifies_array_inv _ _ _ Hv) as (r & xs & -> & Hr & Hxs).
  destruct (createLibraryReferenceStructure_reifies
              libName (Some (VRef r)) h1 xs ts) as (v & h2 & Hrun2 & Hp2 & Hv2).
  { simpl. by rewrite Hr. }
  { done. }
  exists v, h2. repeat split; [|by etrans|done].
  unfold bind. by rewrite Hrun.
Qed.
End Helper.

(** * The exported value *)

Ltac produce :=
  repeat first
    [ lazymatch goal with
      | |- produces (createLibraryReferenceStructure ?lib None) _ =>
          exact (produces_reference_omitted lib)
      | |- produces (bind ?e (fun x =>
                      createLibraryReferenceStructure ?lib (Some x)))
                    (TObject [_; _; _; (_, TArray (_ :: ?ts))]) =>
          apply (produces_reference_call lib e ts)
      end
    | apply produces_str
    | apply produces_boolean
    | apply produces_obj_lit
    | apply produces_arr_lit
    | apply List.Forall2_nil
    | apply List.Forall2_cons
    | split; [reflexivity|]; simpl
    | eexists; split; [reflexivity|] ].

Lemma sidebars_produces : produces module_exports sidebars_tree.
Proof. unfold module_exports, sidebars, sidebars_tree. produce. Qed.


(** * Properties of the helper and of the exported value *)

Lemma append_assoc (s1 s2 s3 : string) : (s1 +:+ s2) +:+ s3 = s1 +:+ s2 +:+ s3.
Proof.
  induction s1 as [|c s1 IH]; [done|].
  change (String c ((s1 +:+ s2) +:+ s3) = String c (s1 +:+ s2 +:+ s3)).
  by rewrite IH.
Qed.

(** The first two properties of an object literal are there whenever the
    literal completes, whatever the remaining properties evaluate to. *)
Lemma obj_lit_type_label a b ps h v h' :
  obj_lit (("type", str a) :: ("label", str b) :: ps) h = (Normal v, h') ->
  get h' v "type" = Some (VStr a) /\ get h' v "label" = Some (VStr b).
Proof.
  unfold obj_lit. cbn [eval_props]. unfold str, bind, ret, alloc.
  destruct (eval_props ps h) as [[vs|e] h1]; intros [= <- <-].
  unfold get. rewrite list_lookup_middle by reflexivity. done.
Qed.

Lemma result_type_label libName extra_arg h v h' :
  createLibraryReferenceStructure libName extra_arg h = (Normal v, h') ->
  category_named_reference h' v.
Proof. apply obj_lit_type_label. Qed.

Lemma nodes_unfold t : nodes t = t :: flat_map nodes (children t).
Proof.
  destruct t as [| | | | |ps|]; try reflexivity.
  unfold children, tget. cbn [nodes]. f_equal.
  induction ps as [|[k v] ps IH]; [reflexivity|]. cbn [assoc].
  destruct (String.eqb "items" k); [by destruct v|exact IH].
Qed.

(** The helper on the empty heap, as the first call of the source has it. *)
Example createLibraryReferenceStructure_rest :
  createLibraryReferenceStructure "rest" None [] =
    (Normal (VRef 4),
     [OObject [("type", VStr "doc");
               ("id", VStr "standard-library/rest/reference/index")];
      OObject [("type", VStr "autogenerated");
               ("dirName", VStr "standard-library/rest/reference")];
      OArray [];
      OArray [VRef 1];
      OObject [("type", VStr "category"); ("label", VStr "Reference");
               ("link", VRef 0); ("items", VRef 3)]]).
Proof. reflexivity. Qed.

(** The entries of [extra] are shared with the result, not copied: the
    object an entry refers to is the one the argument refers to. *)
Example createLibraryReferenceStructure_shares_entries :
  createLibraryReferenceStructure "rest" (Some (VRef 1))
    [OObject [("type", VStr "doc")]; OArray [VRef 0]] =
    (Normal (VRef 5),
     [OObject [("type", VStr "doc")];
      OArray [VRef 0];
      OObject [("type", VStr "doc");
               ("id", VStr "standard-library/rest/reference/index")];
      OObject [("type", VStr "autogenerated");
               ("dirName", VStr "standard-library/rest/reference")];
      OArray [VRef 3; VRef 0];
      OObject [("type", VStr "category"); ("label", VStr "Reference");
               ("link", VRef 2); ("items", VRef 4)]]).
Proof. reflexivity. Qed.

(** Outside the signature: an [extra] that cannot be iterated makes the
    spread throw. *)
Example createLibraryReferenceStructure_not_iterable :
  (createLibraryReferenceStructure "rest" (Some (VBool true)) []).1 =
    Throw TypeError.
Proof. reflexivity. Qed.

(** The properties the categories of the exported value carry: [type],
    [label], [link], [items], and [collapsed] on the last one. *)
Example category_property_names :
  map property_names
      (filter (fun t => is_category t = true)
              (flat_map nodes
                 match tget sidebars_tree "docsSidebar" with
                 | Some (TArray items) => items
                 | _ => []
                 end)) =
    [["type"; "label"; "items"];
     ["type"; "label"; "items"];
     ["type"; "label"; "items"];
     ["type"; "label"; "items"];
     ["type"; "label"; "items"];
     ["type"; "label"; "items"];
     ["type"; "label"; "link"; "items"];
     ["type"; "label"; "items"];
     ["type"; "label"; "link"; "items"];
     ["type"; "label"; "items"];
     ["type"; "label"; "link"; "items"];
     ["type"; "label"; "collapsed"; "link"; "items"]].
Proof. reflexivity. Qed.

(** C1: for every library name and every optional list [extra], the call
    returns an object of a fixed shape: a category labelled "Reference",
    whose link is the doc link [standard-library/<libName>/reference/index],
    and whose items are an autogenerated entry for the directory
    [standard-library/<libName>/reference] followed by the entries of
    [extra] (none when [extra] is omitted). *)
Theorem createLibraryReferenceStructure_fixed_shape
    (libName : string) (extra_arg : option value) (h : heap)
    (entries : list value) :
  extra_entries h extra_arg = Some entries ->
  exists v h',
    createLibraryReferenceStructure libName extra_arg h = (Normal v, h') /\
    reference_shape h' v libName entries.
Proof.
  intros He.
  destruct (createLibraryReferenceStructure_run libName _ _ _ He)
    as (v & h' & Hrun & _ & Hshape).
  by exists v, h'.
Qed.

Lemma createLibraryReferenceStructure_fixed_shape_witness :
  exists v h',
    createLibraryReferenceStructure "openapi" (Some (VRef 0))
      [OArray [VStr "standard-library/openapi/diagnostics"]] = (Normal v, h') /\
    reference_shape h' v "openapi" [VStr "standard-library/openapi/diagnostics"].
Proof.
  apply (createLibraryReferenceStructure_fixed_shape
           "openapi" (Some (VRef 0))
           [OArray [VStr "standard-library/openapi/diagnostics"]]).
  reflexivity.
Defined.

(** C2, as the code has it: the helper is a pure function from a library
    name and an optional list of extra items to a nested-item descriptor (it
    only adds cells to the heap), and the label of the descriptor is the
    constant "Reference" whatever the arguments are; it is the string
    supplied as argument only when that string is "Reference". *)
Theorem createLibraryReferenceStructure_label_is_constant
    (libName : string) (extra_arg : option value) (h : heap)
    (entries : list value) :
  extra_entries h extra_arg = Some entries ->
  exists v h',
    createLibraryReferenceStructure libName extra_arg h = (Normal v, h') /\
    h `prefix_of` h' /\
    get h' v "label" = Some (VStr "Reference") /\
    (get h' v "label" = Some (VStr libName) <-> libName = "Reference").
Proof.
  intros He.
  destruct (createLibraryReferenceStructure_run libName _ _ _ He)
    as (v & h' & Hrun & Hp & _).
  destruct (result_type_label _ _ _ _ _ Hrun) as [_ Hlabel].
  exists v, h'. split; [done|]. split; [done|]. split; [done|].
  rewrite Hlabel. split; [by intros [= ->]|by intros ->].
Qed.

Lemma createLibraryReferenceStructure_label_is_constant_witness :
  exists v h',
    createLibraryReferenceStructure "rest" None [] = (Normal v, h') /\
    [] `prefix_of` h' /\
    get h' v "label" = Some (VStr "Reference") /\
    (get h' v "label" = Some (VStr "rest") <-> "rest" = "Reference").
Proof.
  apply (createLibraryReferenceStructure_label_is_constant "rest" None [] []).
  reflexivity.
Defined.

(** C2, as stated, fails: called with the library name "rest", the helper
    returns a descriptor whose label is "Reference", not the argument. *)
Lemma label_is_not_the_argument :
  exists v h',
    createLibraryReferenceStructure "rest" None [] = (Normal v, h') /\
    get h' v "label" = Some (VStr "Reference") /\
    get h' v "label" <> Some (VStr "rest").
Proof.
  eexists _, _. split; [reflexivity|]. split; [reflexivity|]. discriminate.
Qed.

(** C3: for every library name and every list [extra], omitted and
    [undefined] included, the call completes normally, and all it does to
    the heap is to add the cells of the value it returns: the heap it was
    called in is a prefix of the heap it leaves. *)
Theorem createLibraryReferenceStructure_returns
    (libName : string) (extra_arg : option value) (h : heap)
    (entries : list value) :
  extra_entries h extra_arg = Some entries ->
  exists v h',
    createLibraryReferenceStructure libName extra_arg h = (Normal v, h') /\
    h `prefix_of` h'.
Proof.
  intros He.
  destruct (createLibraryReferenceStructure_run libName _ _ _ He)
    as (v & h' & Hrun & Hp & _).
  by exists v, h'.
Qed.

Lemma createLibraryReferenceStructure_returns_witness :
  exists v h',
    createLibraryReferenceStructure "rest" (Some VUndefined)
      [OArray []; OObject [("a", VRef 0)]] = (Normal v, h') /\
    [OArray []; OObject [("a", VRef 0)]] `prefix_of` h'.
Proof.
  apply (createLibraryReferenceStructure_returns
           "rest" (Some VUndefined) [OArray []; OObject [("a", VRef 0)]] []).
  reflexivity.
Defined.

(** C9: the items of a result are never empty; they start with the
    autogenerated marker, the entries of [extra] follow it in their order,
    and the id of the link is the marker's directory followed by "/index". *)
Theorem items_start_with_the_marker
    (libName : string) (extra_arg : option value) (h : heap)
    (entries : list value) :
  extra_entries h extra_arg = Some entries ->
  exists v h' items marker link dir,
    createLibraryReferenceStructure libName extra_arg h = (Normal v, h') /\
    get h' v "items" = Some items /\
    elements h' items = Some (marker :: entries) /\
    get h' marker "type" = Some (VStr "autogenerated") /\
    get h' marker "dirName" = Some (VStr dir) /\
    get h' v "link" = Some link /\
    get h' link "id" = Some (VStr (dir +:+ "/index")).
Proof.
  intros He.
  destruct (createLibraryReferenceStructure_run libName _ _ _ He)
    as (v & h' & Hrun & _ & (r & l & a & g & -> & Hr & Hl & Ha & Hg)).
  exists (VRef r), h', (VRef a), (VRef g), (VRef l),
    ("standard-library/" +:+ libName +:+ "/reference").
  unfold get, elements. rewrite Hr, Hl, Ha, Hg.
  repeat split; try done.
  cbn [assoc String.eqb Ascii.eqb Bool.eqb]. do 2 f_equal.
  rewrite !append_assoc. reflexivity.
Qed.

Lemma items_start_with_the_marker_witness :
  exists v h' items marker link dir,
    createLibraryReferenceStructure "openapi" (Some (VRef 0))
      [OArray [VStr "standard-library/openapi/diagnostics"]] = (Normal v, h') /\
    get h' v "items" = Some items /\
    elements h' items =
      Some (marker :: [VStr "standard-library/openapi/diagnostics"]) /\
    get h' marker "type" = Some (VStr "autogenerated") /\
    get h' marker "dirName" = Some (VStr dir) /\
    get h' v "link" = Some link /\
    get h' link "id" = Some (VStr (dir +:+ "/index")).
Proof.
  apply (items_start_with_the_marker
           "openapi" (Some (VRef 0))
           [OArray [VStr "standard-library/openapi/diagnostics"]]).
  reflexivity.
Defined.

(** C10: the type and the label of a result do not depend on the
    arguments: whatever two calls are made, in whatever heaps, the values
    they return agree on both fields, which are "category" and
    "Reference". *)
Theorem type_and_label_independent_of_arguments
    (libName1 libName2 : string) (extra_arg1 extra_arg2 : option value)
    (h1 h2 : heap) (v1 v2 : value) (h1' h2' : heap) :
  createLibraryReferenceStructure libName1 extra_arg1 h1 = (Normal v1, h1') ->
  createLibraryReferenceStructure libName2 extra_arg2 h2 = (Normal v2, h2') ->
  get h1' v1 "type" = get h2' v2 "type" /\
  get h1' v1 "label" = get h2' v2 "label" /\
  category_named_reference h1' v1 /\
  category_named_reference h2' v2.
Proof.
  intros Hrun1 Hrun2.
  destruct (result_type_label _ _ _ _ _ Hrun1) as [Ht1 Hl1].
  destruct (result_type_label _ _ _ _ _ Hrun2) as [Ht2 Hl2].
  unfold category_named_reference. rewrite Ht1, Ht2, Hl1, Hl2. done.
Qed.

Lemma type_and_label_independent_of_arguments_witness :
  get (createLibraryReferenceStructure "rest" None []).2 (VRef 4) "type" =
    get (createLibraryReferenceStructure "openapi" (Some (VRef 0))
           [OArray [VStr "standard-library/openapi/diagnostics"]]).2
        (VRef 4) "type" /\
  get (createLibraryReferenceStructure "rest" None []).2 (VRef 4) "label" =
    get (createLibraryReferenceStructure "openapi" (Some (VRef 0))
           [OArray [VStr "standard-library/openapi/diagnostics"]]).2
        (VRef 4) "label" /\
  category_named_reference
    (createLibraryReferenceStructure "rest" None []).2 (VRef 4) /\
  category_named_reference
    (createLibraryReferenceStructure "openapi" (Some (VRef 0))
       [OArray [VStr "standard-library/openapi/diagnostics"]]).2
    (VRef 4).
Proof.
  apply (type_and_label_independent_of_arguments
           "rest" "openapi" None (Some (VRef 0))
           [] [OArray [VStr "standard-library/openapi/diagnostics"]]);
    reflexivity.
Defined.

(** C8: leaving [extra] out is passing the empty list: in any three heaps,
    a call without [extra], a call with [undefined] and a call with [[]]
    return normally, and the first two results are structurally equal to
    the third. *)
Theorem omitted_extra_is_the_empty_list
    (libName : string) (h1 h2 h3 : heap) :
  exists v1 h1' v2 h2' v3 h3',
    createLibraryReferenceStructure libName None h1 = (Normal v1, h1') /\
    createLibraryReferenceStructure libName (Some VUndefined) h2
      = (Normal v2, h2') /\
    (let* extra := arr_lit [] in
     createLibraryReferenceStructure libName (Some extra)) h3
      = (Normal v3, h3') /\
    structurally_equal h1' v1 h3' v3 /\
    structurally_equal h2' v2 h3' v3.
Proof.
  destruct (produces_reference_omitted libName h1) as (v1 & h1' & Hrun1 & _ & Hv1).
  destruct (createLibraryReferenceStructure_reifies
              libName (Some VUndefined) h2 [] [])
    as (v2 & h2' & Hrun2 & _ & Hv2); [done|constructor|].
  destruct (produces_reference_call libName (arr_lit []) []
              (produces_arr_lit [] [] (List.Forall2_nil _)) h3)
    as (v3 & h3' & Hrun3 & _ & Hv3).
  exists v1, h1', v2, h2', v3, h3'.
  repeat split; try done; by exists (reference_tree libName []).
Qed.

(** C6: construction is deterministic, free of side effects and depends on
    no state outside its arguments: evaluated in any two heaps, the module
    exports structurally equal values, and two calls of the helper with the
    same library name and with [extra] arguments that denote the same
    entries return structurally equal values; the cells that were in the
    heaps are left as they were. *)
Theorem construction_is_deterministic
    (h1 h2 : heap) (libName : string) (extra_arg1 extra_arg2 : option value)
    (entries1 entries2 : list value) (ts : list tree) :
  extra_entries h1 extra_arg1 = Some entries1 ->
  extra_entries h2 extra_arg2 = Some entries2 ->
  Forall2 (reifies h1) entries1 ts ->
  Forall2 (reifies h2) entries2 ts ->
  (exists v1 h1' v2 h2',
     module_exports h1 = (Normal v1, h1') /\
     module_exports h2 = (Normal v2, h2') /\
     h1 `prefix_of` h1' /\ h2 `prefix_of` h2' /\
     structurally_equal h1' v1 h2' v2) /\
  (exists v1 h1' v2 h2',
     createLibraryReferenceStructure libName extra_arg1 h1 = (Normal v1, h1') /\
     createLibraryReferenceStructure libName extra_arg2 h2 = (Normal v2, h2') /\
     h1 `prefix_of` h1' /\ h2 `prefix_of` h2' /\
     structurally_equal h1' v1 h2' v2).
Proof.
  intros He1 He2 Hts1 Hts2. split.
  - destruct (sidebars_produces h1) as (v1 & h1' & Hrun1 & Hp1 & Hv1).
    destruct (sidebars_produces h2) as (v2 & h2' & Hrun2 & Hp2 & Hv2).
    exists v1, h1', v2, h2'. do 4 (split; [done|]). by exists sidebars_tree.
  - destruct (createLibraryReferenceStructure_reifies libName _ _ _ _ He1 Hts1)
      as (v1 & h1' & Hrun1 & Hp1 & Hv1).
    destruct (createLibraryReferenceStructure_reifies libName _ _ _ _ He2 Hts2)
      as (v2 & h2' & Hrun2 & Hp2 & Hv2).
    exists v1, h1', v2, h2'. do 4 (split; [done|]).
    by exists (reference_tree libName ts).
Qed.

Lemma construction_is_deterministic_witness :
  (exists v1 h1' v2 h2',
     module_exports [OArray [VStr "standard-library/openapi/diagnostics"]]
       = (Normal v1, h1') /\
     module_exports
       [OObject []; OArray [VStr "standard-library/openapi/diagnostics"]]
       = (Normal v2, h2') /\
     [OArray [VStr "standard-library/openapi/diagnostics"]] `prefix_of` h1' /\
     [OObject []; OArray [VStr "standard-library/openapi/diagnostics"]]
       `prefix_of` h2' /\
     structurally_equal h1' v1 h2' v2) /\
  (exists v1 h1' v2 h2',
     createLibraryReferenceStructure "openapi" (Some (VRef 0))
       [OArray [VStr "standard-library/openapi/diagnostics"]]
       = (Normal v1, h1') /\
     createLibraryReferenceStructure "openapi" (Some (VRef 1))
       [OObject []; OArray [VStr "standard-library/openapi/diagnostics"]]
       = (Normal v2, h2') /\
     [OArray [VStr "standard-library/openapi/diagnostics"]] `prefix_of` h1' /\
     [OObject []; OArray [VStr "standard-library/openapi/diagnostics"]]
       `prefix_of` h2' /\
     structurally_equal h1' v1 h2' v2).
Proof.
  apply (construction_is_deterministic
           [OArray [VStr "standard-library/openapi/diagnostics"]]
           [OObject []; OArray [VStr "standard-library/openapi/diagnostics"]]
           "openapi" (Some (VRef 0)) (Some (VRef 1))
           [VStr "standard-library/openapi/diagnostics"]
           [VStr "standard-library/openapi/diagnostics"]
           [TStr "standard-library/openapi/diagnostics"]).
  - reflexivity.
  - reflexivity.
  - constructor; [by exists 0|constructor].
  - constructor; [by exists 0|constructor].
Defined.

(** C4: every node of the exported sidebar, the results of the two calls
    of the helper included, is of exactly one of the three kinds: a leaf (a
    string), a category (a label, an optional link and a list of child
    items, themselves nodes), or an autogenerated placeholder (a directory
    name). *)
Theorem every_node_has_exactly_one_kind (h : heap) :
  exists v h' t items,
    module_exports h = (Normal v, h') /\
    reifies h' v t /\
    tget t "docsSidebar" = Some (TArray items) /\
    Forall exactly_one_kind (flat_map nodes items).
Proof.
  destruct (sidebars_produces h) as (v & h' & Hrun & _ & Hv).
  exists v, h', sidebars_tree. eexists.
  split; [done|]. split; [done|]. split; [reflexivity|].
  apply Forall_forall. intros t Ht.
  repeat (apply elem_of_cons in Ht as [->|Ht]; [reflexivity|]).
  by apply elem_of_nil in Ht.
Qed.

(** C5: in the exported sidebar, labels are unique within every sibling
    list: the categories among the items of [docsSidebar], and among the
    child items of any node, carry pairwise different labels. *)
Theorem sibling_labels_are_unique (h : heap) :
  exists v h' t items,
    module_exports h = (Normal v, h') /\
    reifies h' v t /\
    tget t "docsSidebar" = Some (TArray items) /\
    NoDup (category_labels items) /\
    Forall (fun n => NoDup (category_labels (children n)))
           (flat_map nodes items).
Proof.
  destruct (sidebars_produces h) as (v & h' & Hrun & _ & Hv).
  exists v, h', sidebars_tree. eexists.
  split; [done|]. split; [done|]. split; [reflexivity|]. split.
  - apply (bool_decide_unpack _). by vm_compute.
  - apply (bool_decide_unpack _). by vm_compute.
Qed.


(** * The helper on arbitrary arguments *)

Ltac run_helper :=
  cbv [createLibraryReferenceStructure obj_lit arr_lit eval_props eval_elems
       nullish bind iterate alloc ret throw str param].

(** Heaps grown one cell at a time, and the addresses in them, brought to
    the form [h ++ cells] and [length h + k]. *)
Ltac normalise_heap :=
  unfold new_cells; cbn [default_cells length app];
  rewrite ?app_nil_r, ?length_app, <- ?app_assoc; cbn [length app];
  rewrite <- ?Nat.add_assoc; reflexivity.

(** The heap a completed call leaves, cell by cell. *)
Lemma createLibraryReferenceStructure_cells libName extra_arg h entries :
  spread_entries h (param extra_arg) = Some entries ->
  createLibraryReferenceStructure libName extra_arg h =
    (Normal (VRef (length h + 3 + length (default_cells (param extra_arg)))),
     h ++ new_cells (length h) libName (param extra_arg) entries).
Proof.
  intros He.
  destruct extra_arg as [[| | | | s|r]|]; cbn [param] in *; simpl in He;
    try discriminate.
  - injection He as <-. run_helper.
    rewrite list_lookup_middle by reflexivity. normalise_heap.
  - injection He as <-. run_helper.
    rewrite list_lookup_middle by reflexivity. normalise_heap.
  - injection He as <-. run_helper. normalise_heap.
  - destruct (h !! r) as [[ps|xs]|] eqn:Hr; try discriminate.
    injection He as <-. run_helper.
    rewrite lookup_app_l_Some with (x := OArray xs)
      by (by apply lookup_app_l_Some).
    normalise_heap.
  - injection He as <-. run_helper.
    rewrite list_lookup_middle by reflexivity. normalise_heap.
Qed.


Lemma extra_entries_spread h extra_arg entries :
  extra_entries h extra_arg = Some entries ->
  spread_entries h (param extra_arg) = Some entries.
Proof. by destruct extra_arg as [[]|]. Qed.

Lemma extra_entries_mono h h' extra_arg entries :
  h `prefix_of` h' ->
  extra_entries h extra_arg = Some entries ->
  extra_entries h' extra_arg = Some entries.
Proof.
  intros Hp. destruct extra_arg as [[| | | | |r]|]; try done. simpl.
  destruct (h !! r) as [o|] eqn:Hr; [|done].
  by rewrite (prefix_lookup_Some _ _ _ _ Hr Hp).
Qed.

Lemma lookup_app_offset {A} (l k : list A) (i j : nat) :
  i = length l + j -> (l ++ k) !! i = k !! j.
Proof. intros ->. rewrite lookup_app_r by lia. f_equal. lia. Qed.

Ltac lookup_offset :=
  first [ rewrite (lookup_app_offset _ _ _ 0) by lia
        | rewrite (lookup_app_offset _ _ _ 1) by lia
        | rewrite (lookup_app_offset _ _ _ 2) by lia
        | rewrite (lookup_app_offset _ _ _ 3) by lia
        | rewrite (lookup_app_offset _ _ _ 4) by lia ].

(** The cells of a completed call have the shape of a reference. *)
Lemma new_cells_shape h libName extra entries :
  reference_shape (h ++ new_cells (length h) libName extra entries)
    (VRef (length h + 3 + length (default_cells extra))) libName entries.
Proof.
  exists (length h + 3 + length (default_cells extra)), (length h),
    (length h + 2 + length (default_cells extra)), (length h + 1).
  split; [done|].
  destruct extra; cbn [default_cells length]; repeat split;
    lookup_offset; reflexivity.
Qed.

(** The tree of a completed call, for every argument the spread accepts. *)
Lemma createLibraryReferenceStructure_spread_reifies
    libName extra_arg h entries ts :
  spread_entries h (param extra_arg) = Some entries ->
  Forall2 (reifies h) entries ts ->
  reifies (h ++ new_cells (length h) libName (param extra_arg) entries)
    (VRef (length h + 3 + length (default_cells (param extra_arg))))
    (reference_tree libName ts).
Proof.
  intros He Hes.
  eapply reference_shape_reifies; [apply new_cells_shape|].
  eapply Forall2_impl; [exact Hes|]. intros x y Hxy.
  eapply reifies_mono; [|exact Hxy]. by apply prefix_app_r.
Qed.




(** X2: [null] is treated like a missing [extra]: the call returns
    normally and its result is structurally equal to the result of a call
    with the empty list. *)
Theorem null_extra_is_the_empty_list (libName : string) (h1 h2 : heap) :
  exists v1 h1' v2 h2',
    createLibraryReferenceStructure libName (Some VNull) h1 = (Normal v1, h1') /\
    (let* extra := arr_lit [] in
     createLibraryReferenceStructure libName (Some extra)) h2
      = (Normal v2, h2') /\
    structurally_equal h1' v1 h2' v2.
Proof.
  destruct (produces_reference_call libName (arr_lit []) []
              (produces_arr_lit [] [] (List.Forall2_nil _)) h2)
    as (v2 & h2' & Hrun2 & _ & Hv2).
  eexists _, _, v2, h2'. split.
  { by apply (createLibraryReferenceStructure_cells libName (Some VNull) h1 []). }
  split; [done|]. exists (reference_tree libName []). split; [|done].
  apply (createLibraryReferenceStructure_spread_reifies
           libName (Some VNull) h1 [] []); [done|constructor].
Qed.

(** X3: the four cells of a result (the category, its link, its items
    array and the marker) are new and pairwise different: none of them is a
    cell of the heap the call was made in, so the items array is never the
    array passed as [extra], and the cells that were there, the [extra]
    array among them, are unchanged. *)
Theorem result_cells_are_fresh
    (libName : string) (extra_arg : option value) (h : heap)
    (entries : list value) :
  extra_entries h extra_arg = Some entries ->
  exists r l a g h',
    createLibraryReferenceStructure libName extra_arg h = (Normal (VRef r), h') /\
    get h' (VRef r) "link" = Some (VRef l) /\
    get h' (VRef r) "items" = Some (VRef a) /\
    elements h' (VRef a) = Some (VRef g :: entries) /\
    length h <= l /\ l < g /\ g < a /\ a < r /\ r < length h' /\
    (forall x o, h !! x = Some o -> h' !! x = Some o).
Proof.
  intros He. apply extra_entries_spread in He.
  eexists _, (length h), (length h + 2 + length (default_cells (param extra_arg))),
    (length h + 1), _.
  split; [by apply createLibraryReferenceStructure_cells|].
  unfold get, elements. rewrite length_app.
  destruct (param extra_arg); cbn [default_cells length new_cells app];
    (repeat split; [lookup_offset; reflexivity ..|lia|lia|lia|lia|lia|]);
    intros x o Hx; by apply lookup_app_l_Some.
Qed.

Lemma result_cells_are_fresh_witness :
  exists r l a g h',
    createLibraryReferenceStructure "openapi" (Some (VRef 0))
      [OArray [VStr "standard-library/openapi/diagnostics"]]
      = (Normal (VRef r), h') /\
    get h' (VRef r) "link" = Some (VRef l) /\
    get h' (VRef r) "items" = Some (VRef a) /\
    elements h' (VRef a) =
      Some (VRef g :: [VStr "standard-library/openapi/diagnostics"]) /\
    length [OArray [VStr "standard-library/openapi/diagnostics"]] <= l /\
    l < g /\ g < a /\ a < r /\ r < length h' /\
    (forall x o,
       [OArray [VStr "standard-library/openapi/diagnostics"]] !! x = Some o ->
       h' !! x = Some o).
Proof.
  apply (result_cells_are_fresh
           "openapi" (Some (VRef 0))
           [OArray [VStr "standard-library/openapi/diagnostics"]]).
  reflexivity.
Defined.


(** * The helper and the sidebar data model *)

Lemma nodes_reference_tree libName ts :
  nodes (reference_tree libName ts) =
    reference_tree libName ts ::
    TObject [("type", TStr "autogenerated");
             ("dirName", TStr ("standard-library/" +:+ libName
                                 +:+ "/reference"))] ::
    flat_map nodes ts.
Proof. reflexivity. Qed.

(** X5: the helper keeps the data model: when every node of every entry of
    [extra] is of exactly one of the three kinds, so is every node of the
    result, which is itself a category. *)
Theorem result_nodes_have_exactly_one_kind
    (libName : string) (extra_arg : option value) (h : heap)
    (entries : list value) (ts : list tree) :
  extra_entries h extra_arg = Some entries ->
  Forall2 (reifies h) entries ts ->
  Forall exactly_one_kind (flat_map nodes ts) ->
  exists v h' t,
    createLibraryReferenceStructure libName extra_arg h = (Normal v, h') /\
    reifies h' v t /\
    is_category t = true /\
    Forall exactly_one_kind (nodes t).
Proof.
  intros He Hes Hts.
  destruct (createLibraryReferenceStructure_reifies libName _ _ _ _ He Hes)
    as (v & h' & Hrun & _ & Hv).
  exists v, h', (reference_tree libName ts).
  split; [done|]. split; [done|]. split; [reflexivity|].
  rewrite nodes_reference_tree.
  constructor; [reflexivity|]. constructor; [reflexivity|]. exact Hts.
Qed.

Lemma result_nodes_have_exactly_one_kind_witness :
  exists v h' t,
    createLibraryReferenceStructure "openapi" (Some (VRef 0))
      [OArray [VStr "standard-library/openapi/diagnostics"]] = (Normal v, h') /\
    reifies h' v t /\
    is_category t = true /\
    Forall exactly_one_kind (nodes t).
Proof.
  apply (result_nodes_have_exactly_one_kind
           "openapi" (Some (VRef 0))
           [OArray [VStr "standard-library/openapi/diagnostics"]]
           [VStr "standard-library/openapi/diagnostics"]
           [TStr "standard-library/openapi/diagnostics"]).
  - reflexivity.
  - constructor; [by exists 0|constructor].
  - constructor; [reflexivity|constructor].
Defined.

(** X6: the helper adds no category to a sibling list: the categories among
    the items of a result are those among the entries of [extra], so labels
    that are unique among the entries are unique among the items. *)
Theorem result_keeps_sibling_labels_unique
    (libName : string) (extra_arg : option value) (h : heap)
    (entries : list value) (ts : list tree) :
  extra_entries h extra_arg = Some entries ->
  Forall2 (reifies h) entries ts ->
  NoDup (category_labels ts) ->
  exists v h' t,
    createLibraryReferenceStructure libName extra_arg h = (Normal v, h') /\
    reifies h' v t /\
    category_labels (children t) = category_labels ts /\
    NoDup (category_labels (children t)).
Proof.
  intros He Hes Hts.
  destruct (createLibraryReferenceStructure_reifies libName _ _ _ _ He Hes)
    as (v & h' & Hrun & _ & Hv).
  by exists v, h', (reference_tree libName ts).
Qed.

Lemma result_keeps_sibling_labels_unique_witness :
  exists v h' t,
    createLibraryReferenceStructure "openapi" (Some (VRef 2))
      [OArray [];
       OObject [("type", VStr "category"); ("label", VStr "Diagnostics");
                ("items", VRef 0)];
       OArray [VRef 1]] = (Normal v, h') /\
    reifies h' v t /\
    category_labels (children t) =
      category_labels
        [TObject [("type", TStr "category"); ("label", TStr "Diagnostics");
                  ("items", TArray [])]] /\
    NoDup (category_labels (children t)).
Proof.
  apply (result_keeps_sibling_labels_unique
           "openapi" (Some (VRef 2))
           [OArray [];
            OObject [("type", VStr "category"); ("label", VStr "Diagnostics");
                     ("items", VRef 0)];
            OArray [VRef 1]]
           [VRef 1]).
  - reflexivity.
  - constructor; [by exists 2|constructor].
  - apply (bool_decide_unpack _). by vm_compute.
Defined.

(** * Library names and link ids *)

Lemma append_length (s1 s2 : string) :
  String.length (s1 +:+ s2) = String.length s1 + String.length s2.
Proof.
  induction s1 as [|c s1 IH]; [done|].
  change (S (String.length (s1 +:+ s2)) = S (String.length s1 + String.length s2)).
  by rewrite IH.
Qed.

Lemma append_inj_l (s a b : string) : s +:+ a = s +:+ b -> a = b.
Proof.
  induction s as [|c s IH]; [done|].
  change (String c (s +:+ a) = String c (s +:+ b) -> a = b).
  intros [= H]. by apply IH.
Qed.

Lemma append_inj_r (a b s : string) : a +:+ s = b +:+ s -> a = b.
Proof.
  revert b. induction a as [|c a IH]; intros [|c' b] H.
  - done.
  - apply (f_equal String.length) in H.
    change (String c' b +:+ s) with (String c' (b +:+ s)) in H.
    change (String.length ("" +:+ s)) with (String.length s) in H.
    simpl in H. rewrite append_length in H. lia.
  - apply (f_equal String.length) in H.
    change (String c a +:+ s) with (String c (a +:+ s)) in H.
    change (String.length ("" +:+ s)) with (String.length s) in H.
    simpl in H. rewrite append_length in H. lia.
  - change (String c (a +:+ s) = String c' (b +:+ s)) in H.
    injection H as -> H. f_equal. by apply IH.
Qed.

(** X7: the link of a result identifies the library: the results of two
    calls have the same link id exactly when the calls were given the same
    library name. *)
Theorem link_id_determines_the_library
    (libName1 libName2 : string) (extra_arg1 extra_arg2 : option value)
    (h1 h2 : heap) (entries1 entries2 : list value) :
  extra_entries h1 extra_arg1 = Some entries1 ->
  extra_entries h2 extra_arg2 = Some entries2 ->
  exists v1 h1' v2 h2' link1 link2 id1 id2,
    createLibraryReferenceStructure libName1 extra_arg1 h1 = (Normal v1, h1') /\
    createLibraryReferenceStructure libName2 extra_arg2 h2 = (Normal v2, h2') /\
    get h1' v1 "link" = Some link1 /\
    get h1' link1 "id" = Some (VStr id1) /\
    get h2' v2 "link" = Some link2 /\
    get h2' link2 "id" = Some (VStr id2) /\
    (id1 = id2 <-> libName1 = libName2).
Proof.
  intros He1 He2.
  destruct (createLibraryReferenceStructure_run libName1 _ _ _ He1)
    as (v1 & h1' & Hrun1 & _ & (r1 & l1 & a1 & g1 & -> & Hr1 & Hl1 & _)).
  destruct (createLibraryReferenceStructure_run libName2 _ _ _ He2)
    as (v2 & h2' & Hrun2 & _ & (r2 & l2 & a2 & g2 & -> & Hr2 & Hl2 & _)).
  exists (VRef r1), h1', (VRef r2), h2', (VRef l1), (VRef l2),
    ("standard-library/" +:+ libName1 +:+ "/reference/index"),
    ("standard-library/" +:+ libName2 +:+ "/reference/index").
  unfold get. rewrite Hr1, Hl1, Hr2, Hl2.
  do 6 (split; [done|]). split; [|by intros ->].
  intros H. apply append_inj_l in H. by apply append_inj_r in H.
Qed.

Lemma link_id_determines_the_library_witness :
  exists v1 h1' v2 h2' link1 link2 id1 id2,
    createLibraryReferenceStructure "rest" None [] = (Normal v1, h1') /\
    createLibraryReferenceStructure "openapi" (Some (VRef 0))
      [OArray [VStr "standard-library/openapi/diagnostics"]] = (Normal v2, h2') /\
    get h1' v1 "link" = Some link1 /\
    get h1' link1 "id" = Some (VStr id1) /\
    get h2' v2 "link" = Some link2 /\
    get h2' link2 "id" = Some (VStr id2) /\
    (id1 = id2 <-> "rest" = "openapi").
Proof.
  apply (link_id_determines_the_library
           "rest" "openapi" None (Some (VRef 0))
           [] [OArray [VStr "standard-library/openapi/diagnostics"]]
           [] [VStr "standard-library/openapi/diagnostics"]);
    reflexivity.
Defined.

(** * Heaps without cycles *)

Lemma refs_below_mono n m v :
  n <= m -> refs_below n v = true -> refs_below m v = true.
Proof.
  intros Hle. destruct v; simpl; try done.
  rewrite !Nat.ltb_lt. lia.
Qed.

Lemma forallb_refs_below_mono n m vs :
  n <= m ->
  forallb (refs_below n) vs = true -> forallb (refs_below m) vs = true.
Proof.
  intros Hle. rewrite !forallb_forall. intros H x Hx.
  by apply (refs_below_mono n), H.
Qed.

Lemma wf_from_app i h k :
  wf_from i (h ++ k) = wf_from i h && wf_from (i + length h) k.
Proof.
  revert i. induction h as [|o h IH]; intros i; simpl.
  - by rewrite Nat.add_0_r.
  - by rewrite IH, Nat.add_succ_r, andb_assoc.
Qed.

Lemma wf_from_lookup i h j o :
  wf_from i h = true -> h !! j = Some o ->
  forallb (refs_below (i + j)) (cell_values o) = true.
Proof.
  revert i j. induction h as [|o' h IH]; intros i [|j] Hwf Hl;
    simpl in *; try discriminate;
    apply andb_true_iff in Hwf as [Ho Hh].
  - injection Hl as <-. by rewrite Nat.add_0_r.
  - rewrite Nat.add_succ_r. by apply (IH (S i)).
Qed.

(** In a well-founded heap every value of the heap denotes a tree. *)
Lemma wf_reify h :
  well_founded h ->
  forall n v, n <= length h -> refs_below n v = true -> is_Some (reify n h v).
Proof.
  intros Hwf. induction n as [|n IH]; intros v Hn Hv.
  - destruct v; simpl in *; eauto. apply Nat.ltb_lt in Hv. lia.
  - destruct v as [| | | | |r]; simpl reify; eauto.
    simpl in Hv. apply Nat.ltb_lt in Hv.
    destruct (lookup_lt_is_Some_2 h r) as [o Hr]; [lia|].
    pose proof (wf_from_lookup 0 h r o Hwf Hr) as Ho. simpl in Ho.
    rewrite forallb_forall in Ho. rewrite Hr.
    destruct o as [ps|xs]; apply fmap_is_Some, mapM_is_Some, Forall_forall.
    + intros p Hp. apply fmap_is_Some, IH; [lia|].
      apply (refs_below_mono r); [lia|]. apply Ho, list_elem_of_In.
      by apply (list_elem_of_fmap_2 snd).
    + intros x Hx. apply IH; [lia|].
      apply (refs_below_mono r); [lia|]. by apply Ho, list_elem_of_In.
Qed.

Lemma new_cells_wf n libName extra entries :
  forallb (refs_below n) entries = true ->
  wf_from n (new_cells n libName extra entries) = true.
Proof.
  intros He.
  assert (forall m, n <= m -> forallb (refs_below m) entries = true)
    by (intros m Hm; by apply (forallb_refs_below_mono n)).
  destruct extra; simpl;
    rewrite ?andb_true_iff, ?Nat.ltb_lt; repeat split; auto with lia.
Qed.

Lemma extra_entries_below h extra_arg entries :
  well_founded h ->
  extra_entries h extra_arg = Some entries ->
  forallb (refs_below (length h)) entries = true.
Proof.
  intros Hwf He. destruct extra_arg as [[| | | | |r]|]; simpl in He;
    try discriminate; try (by injection He as <-).
  destruct (h !! r) as [[ps|xs]|] eqn:Hr; try discriminate.
  injection He as <-.
  apply (forallb_refs_below_mono r).
  - apply lookup_lt_Some in Hr. lia.
  - apply (wf_from_lookup 0 h r (OArray xs) Hwf Hr).
Qed.

(** X8: the helper makes no cycle and no dangling reference: called in a
    heap where every cell refers only to cells allocated before it, with an
    [extra] that is omitted, [undefined] or an array, it leaves such a heap,
    and the value it returns denotes a finite tree. *)
Theorem result_is_a_finite_tree
    (libName : string) (extra_arg : option value) (h : heap)
    (entries : list value) :
  well_founded h ->
  extra_entries h extra_arg = Some entries ->
  exists v h' t,
    createLibraryReferenceStructure libName extra_arg h = (Normal v, h') /\
    well_founded h' /\
    reifies h' v t.
Proof.
  intros Hwf He.
  pose proof (extra_entries_below _ _ _ Hwf He) as Hes.
  apply extra_entries_spread in He.
  pose proof (createLibraryReferenceStructure_cells libName _ _ _ He) as Hrun.
  assert (Hwf' : well_founded
            (h ++ new_cells (length h) libName (param extra_arg) entries)).
  { unfold well_founded. rewrite wf_from_app, Hwf.
    exact (new_cells_wf _ _ _ _ Hes). }
  destruct (wf_reify _ Hwf' (length h + 4 + length (default_cells (param extra_arg)))
              (VRef (length h + 3 + length (default_cells (param extra_arg)))))
    as [t Ht].
  - rewrite length_app. destruct (param extra_arg); simpl; lia.
  - apply Nat.ltb_lt. lia.
  - eexists _, _, t. split; [exact Hrun|]. split; [done|]. by eexists.
Qed.

Lemma result_is_a_finite_tree_witness :
  exists v h' t,
    createLibraryReferenceStructure "openapi" (Some (VRef 2))
      [OArray [];
       OObject [("type", VStr "category"); ("label", VStr "Diagnostics");
                ("items", VRef 0)];
       OArray [VRef 1]] = (Normal v, h') /\
    well_founded h' /\
    reifies h' v t.
Proof.
  apply (result_is_a_finite_tree
           "openapi" (Some (VRef 2))
           [OArray [];
            OObject [("type", VStr "category"); ("label", VStr "Diagnostics");
                     ("items", VRef 0)];
            OArray [VRef 1]]
           [VRef 1]);
    reflexivity.
Defined.

(** X9: calls nest: a call whose [extra] list holds the result of another
    call returns, from any heap, the category of the outer library with the
    category of the inner library after its marker. *)
Theorem nested_calls_nest (libName1 libName2 : string) :
  produces
    (let* extra :=
       arr_lit [Elem (createLibraryReferenceStructure libName2 None)] in
     createLibraryReferenceStructure libName1 (Some extra))
    (reference_tree libName1 [reference_tree libName2 []]).
Proof.
  apply produces_reference_call, produces_arr_lit.
  constructor; [|constructor].
  eexists. split; [reflexivity|]. apply produces_reference_omitted.
Qed.

(** X10: every call builds a new object: a second call with the same
    arguments, made in the heap the first one left, returns a different
    reference, and the two results are structurally equal. *)
Theorem successive_calls_return_distinct_objects
    (libName : string) (extra_arg : option value) (h : heap)
    (entries : list value) (ts : list tree) :
  extra_entries h extra_arg = Some entries ->
  Forall2 (reifies h) entries ts ->
  exists v1 h1 v2 h2,
    createLibraryReferenceStructure libName extra_arg h = (Normal v1, h1) /\
    createLibraryReferenceStructure libName extra_arg h1 = (Normal v2, h2) /\
    v1 <> v2 /\
    structurally_equal h2 v1 h2 v2.
Proof.
  intros He Hes.
  pose proof (createLibraryReferenceStructure_cells
                libName _ _ _ (extra_entries_spread _ _ _ He)) as Hrun1.
  set (h1 := h ++ new_cells (length h) libName (param extra_arg) entries) in *.
  assert (Hp1 : h `prefix_of` h1) by (by apply prefix_app_r).
  pose proof (extra_entries_mono _ _ _ _ Hp1 He) as He1.
  pose proof (createLibraryReferenceStructure_cells
                libName _ _ _ (extra_entries_spread _ _ _ He1)) as Hrun2.
  eexists _, h1, _, _. split; [exact Hrun1|]. split; [exact Hrun2|]. split.
  - intros [= H]. subst h1. rewrite length_app in H.
    destruct (param extra_arg); simpl in H; lia.
  - exists (reference_tree libName ts). split.
    + apply (reifies_mono h1); [by apply prefix_app_r|].
      by apply createLibraryReferenceStructure_spread_reifies;
        [apply extra_entries_spread|].
    + apply createLibraryReferenceStructure_spread_reifies;
        [by apply extra_entries_spread|].
      eapply Forall2_impl; [exact Hes|]. intros x y Hxy.
      by eapply reifies_mono.
Qed.

Lemma successive_calls_return_distinct_objects_witness :
  exists v1 h1 v2 h2,
    createLibraryReferenceStructure "openapi" (Some (VRef 0))
      [OArray [VStr "standard-library/openapi/diagnostics"]] = (Normal v1, h1) /\
    createLibraryReferenceStructure "openapi" (Some (VRef 0)) h1
      = (Normal v2, h2) /\
    v1 <> v2 /\
    structurally_equal h2 v1 h2 v2.
Proof.
  apply (successive_calls_return_distinct_objects
           "openapi" (Some (VRef 0))
           [OArray [VStr "standard-library/openapi/diagnostics"]]
           [VStr "standard-library/openapi/diagnostics"]
           [TStr "standard-library/openapi/diagnostics"]).
  - reflexivity.
  - constructor; [by exists 0|constructor].
Defined.
